(** * RunOnceDuration admission plugin

    A shallow embedding of [pkg/quota/admission/runonceduration/admission.go]
    and the properties of its admission decision.

    The plugin bounds the lifetime of run-once pods (restart policy [Never] or
    [OnFailure]): it writes [pod.Spec.ActiveDeadlineSeconds] from a
    per-namespace annotation when there is one, and from the cluster-wide
    configuration otherwise. *)

From Stdlib Require Import ZArith Ascii String List.
From stdpp Require Import base option strings gmap.

Local Open Scope string_scope.
Local Open Scope Z_scope.

(** ** Go's [strconv.ParseInt], at base 10 and bit size 64

    [strconv] belongs to the Go standard library.  The two functions below
    follow [ParseUint] and [ParseInt] of [strconv/atoi.go] statement by
    statement, with the arguments [base = 10] and [bitSize = 64] that
    [applyProjectAnnotationOverride] passes.  A Go string is a sequence of
    bytes, as [string] is here; a [uint64] is a [Z] whose wrap-around is
    written out. *)
Module strconv.

Inductive Err := ErrSyntax | ErrRange.

(** [*strconv.NumError]: the function that failed, its input, the reason. *)
Record NumError := { Func : string; Num : string; Reason : Err }.

Definition Err_Error (e : Err) : string :=
  match e with
  | ErrSyntax => "invalid syntax"
  | ErrRange => "value out of range"
  end.

(** The method [Error] of [NumError]; [Quote] is [strconv.Quote]. *)
Definition NumError_Error (Quote : string → string) (e : NumError) : string :=
  "strconv." +:+ Func e +:+ ": parsing " +:+ Quote (Num e) +:+ ": "
    +:+ Err_Error (Reason e).

Definition maxUint64 : Z := 2 ^ 64 - 1.

(** The [switch] on the byte [d] in the loop of [ParseUint]. *)
Definition digit (d : ascii) : option Z :=
  let c := Z.of_N (N_of_ascii d) in
  if (48 <=? c) && (c <=? 57) then Some (c - 48)
  else if (97 <=? c) && (c <=? 122) then Some (c - 97 + 10)
  else if (65 <=? c) && (c <=? 90) then Some (c - 65 + 10)
  else None.

(** The loop of [ParseUint]: [n] is the number read so far.  The result is
    the pair of the [uint64] returned and the error, if any. *)
Fixpoint ParseUint_loop (s : string) (n : Z) : Z * option Err :=
  match s with
  | EmptyString => (n, None)
  | String d s' =>
      match digit d with
      | None => (0, Some ErrSyntax)
      | Some v =>
          if 10 <=? v then (0, Some ErrSyntax)
          else
            let cutoff := maxUint64 / 10 + 1 in
            if cutoff <=? n then (maxUint64, Some ErrRange)
            else
              let n := n * 10 in
              let n1 := (n + v) mod 2 ^ 64 in
              if (n1 <? n) || (maxUint64 <? n1) then (maxUint64, Some ErrRange)
              else ParseUint_loop s' n1
      end
  end.

Definition ParseUint (s : string) : Z * option Err :=
  match s with
  | EmptyString => (0, Some ErrSyntax)
  | _ => ParseUint_loop s 0
  end.

(** [int64(u)] for a [uint64] [u]. *)
Definition int64 (u : Z) : Z := (u + 2 ^ 63) mod 2 ^ 64 - 2 ^ 63.

Definition ParseInt (s : string) : Z + NumError :=
  let fnParseInt := "ParseInt" in
  match s with
  | EmptyString => inr {| Func := fnParseInt; Num := s; Reason := ErrSyntax |}
  | String c rest =>
      let s0 := s in
      let '(neg, s) :=
        if Ascii.eqb c "+" then (false, rest)
        else if Ascii.eqb c "-" then (true, rest)
        else (false, s) in
      let '(un, err) := ParseUint s in
      match err with
      | Some ErrSyntax =>
          inr {| Func := fnParseInt; Num := s0; Reason := ErrSyntax |}
      | _ =>
          let cutoff := 2 ^ 63 in
          if negb neg && (cutoff <=? un) then
            inr {| Func := fnParseInt; Num := s0; Reason := ErrRange |}
          else if neg && (cutoff <? un) then
            inr {| Func := fnParseInt; Num := s0; Reason := ErrRange |}
          else
            let n := int64 un in
            inl (if neg then int64 (- n) else n)
      end
  end.

End strconv.

(** ** The Kubernetes objects the plugin reads and writes *)
Module kapi.

(** [kapi.RestartPolicy] is a string type with three named values. *)
Definition RestartPolicy := string.
Definition RestartPolicyAlways : RestartPolicy := "Always".
Definition RestartPolicyOnFailure : RestartPolicy := "OnFailure".
Definition RestartPolicyNever : RestartPolicy := "Never".

(** The two fields of [kapi.PodSpec] the plugin touches; a nil
    [*int64] is [None]. *)
Record PodSpec := {
  RestartPolicy_ : RestartPolicy;
  ActiveDeadlineSeconds : option Z
}.

Record Pod := { Spec : PodSpec }.

(** The pod after [pod.Spec.ActiveDeadlineSeconds = v]. *)
Definition with_deadline (pod : Pod) (v : option Z) : Pod :=
  {| Spec := {| RestartPolicy_ := RestartPolicy_ (Spec pod);
                ActiveDeadlineSeconds := v |} |}.

(** [kapi.Namespace]: its name and its annotations, a Go map that may be
    nil. *)
Record Namespace := {
  Name : string;
  Annotations : option (gmap string string)
}.

(** [unversioned.GroupResource], and [kapi.Resource]. *)
Record GroupResource := { Group : string; Resource_ : string }.

Definition Resource (resource : string) : GroupResource :=
  {| Group := ""; Resource_ := resource |}.

#[global] Instance GroupResource_eq_dec : EqDecision GroupResource.
Proof. solve_decision. Defined.

(** A [runtime.Object]: a [*kapi.Pod], or an object of another type, of
    which only the [%#v] rendering is ever used. *)
Inductive Object :=
| PodObject (pod : Pod)
| OtherObject (gosyntax : string).

End kapi.

(** ** The admission request *)
Module admission.

(** What the plugin reads of [admission.Attributes]. *)
Record Attributes := {
  GetResource : kapi.GroupResource;
  GetSubresource : string;
  GetNamespace : string;
  GetObject : kapi.Object
}.

End admission.

(** ** The project cache *)
Module projectcache.

(** The method [GetNamespace] of the project cache: the namespace, or an
    error, of which the plugin uses the message only (it formats it with
    [%v]). *)
Record ProjectCache := {
  GetNamespace : string → kapi.Namespace + string
}.

End projectcache.

(** ** The plugin configuration *)
Module api.

Record RunOnceDurationConfig := {
  ActiveDeadlineSecondsOverride : option Z
}.

End api.

(** ** Errors returned by the plugin *)

(** An [error] is either built by [fmt.Errorf] or [errors.New], and then it is
    its message, or it is what [admission.NewForbidden] makes of the request
    and of an inner error. *)
Inductive error :=
| Errorf (message : string)
| NewForbidden (attributes : admission.Attributes) (internalError : error).

(** ** State: the pod behind the pointer, and what the call did

    [Admit] receives a pointer to the pod and assigns to one of its fields.
    The heap holds that pod.  It also records, in order, the calls made to
    the project cache and the assignments made to
    [pod.Spec.ActiveDeadlineSeconds], each with the place it comes from:
    [applyProjectAnnotationOverride] or the default branch of [Admit]. *)
Inductive Event :=
| CalledGetNamespace (namespace : string)
| WroteOverride (value : option Z)
| WroteDefault (value : option Z).

Record Heap := { pod_cell : kapi.Pod; events : list Event }.

(** A computation on the heap; [None] is a nil-pointer panic. *)
Definition M (A : Type) : Type := Heap → option (A * Heap).

Definition M_ret {A} (x : A) : M A := λ h, Some (x, h).

Definition M_bind {A B} (f : A → M B) (m : M A) : M B :=
  λ h, match m h with
       | Some (x, h') => f x h'
       | None => None
       end.

#[global] Instance M_mret : MRet M := @M_ret.
#[global] Instance M_mbind : MBind M := @M_bind.

Definition panic {A} : M A := λ _, None.

Definition emit (e : Event) : M unit :=
  λ h, Some (tt, {| pod_cell := pod_cell h; events := events h ++ [e] |}).

(** [pod.Spec.RestartPolicy] *)
Definition load_RestartPolicy : M kapi.RestartPolicy :=
  λ h, Some (kapi.RestartPolicy_ (kapi.Spec (pod_cell h)), h).

(** [pod.Spec.ActiveDeadlineSeconds = v] *)
Definition store_ActiveDeadlineSeconds (v : option Z) : M unit :=
  λ h, Some (tt, {| pod_cell := kapi.with_deadline (pod_cell h) v;
                    events := events h |}).

(** [a.cache.GetNamespace(namespace)]; the receiver [a.cache] may be nil. *)
Definition call_GetNamespace (cache : option projectcache.ProjectCache)
    (namespace : string) : M (kapi.Namespace + string) :=
  match cache with
  | None => panic
  | Some c =>
      _ ← emit (CalledGetNamespace namespace);
      mret (projectcache.GetNamespace c namespace)
  end.

(** ** The plugin

    Of the struct [runOnceDuration] the embedded [*admission.Handler] is left
    out: it tells the pipeline which operations the plugin handles and
    [Admit] does not read it.  The two pointer fields may be nil.

    The deadline of a pod and the default of the configuration are pointers
    to an [int64].  The plugin assigns these pointers ([Admit] makes the pod
    share the integer of the configuration, the resolver gives it a fresh
    one) and never writes through them, so the integer a pointer leads to
    stands for the pointer here. *)

Record runOnceDuration := {
  config : option api.RunOnceDurationConfig;
  cache : option projectcache.ProjectCache
}.

Definition NewRunOnceDuration (config : option api.RunOnceDurationConfig)
  : runOnceDuration :=
  {| config := config; cache := None |}.

Definition SetProjectCache (a : runOnceDuration)
    (cache : option projectcache.ProjectCache) : runOnceDuration :=
  {| config := config a; cache := cache |}.

Definition Validate (a : runOnceDuration) : option error :=
  match cache a with
  | None => Some (Errorf "RunOnceDuration plugin requires a project cache")
  | Some _ => None
  end.

(** What a call of [Admit] leaves behind: the request's object, the calls and
    writes made, and the error returned ([None] is nil). *)
Record Outcome := {
  object : kapi.Object;
  effects : list Event;
  returned : option error
}.

(** ** Vocabulary of the properties *)

(** The pod has one of the two restart policies the plugin bounds. *)
Definition run_once (pod : kapi.Pod) : Prop :=
  kapi.RestartPolicy_ (kapi.Spec pod) = kapi.RestartPolicyNever
  ∨ kapi.RestartPolicy_ (kapi.Spec pod) = kapi.RestartPolicyOnFailure.

(** The request passes the filters of [Admit]: a policy [cfg] is configured,
    the resource is [pods] with no subresource, and the object is the run-once
    pod [pod]. *)
Definition applicable (a : runOnceDuration) (cfg : api.RunOnceDurationConfig)
    (attributes : admission.Attributes) (pod : kapi.Pod) : Prop :=
  config a = Some cfg
  ∧ admission.GetResource attributes = kapi.Resource "pods"
  ∧ admission.GetSubresource attributes = ""
  ∧ admission.GetObject attributes = kapi.PodObject pod
  ∧ run_once pod.

(** What the project cache of the plugin answers for a namespace name, if
    the plugin has a cache. *)
Definition lookup_namespace (a : runOnceDuration) (namespace : string)
  : option (kapi.Namespace + string) :=
  c ← cache a; Some (projectcache.GetNamespace c namespace).

(** The value of the annotation [key] of a namespace, if it has one. *)
Definition annotation (key : string) (ns : kapi.Namespace) : option string :=
  m ← kapi.Annotations ns; m !! key.

(** [sub] occurs in [s]. *)
Definition occurs_in (sub s : string) : Prop :=
  ∃ before after, s = before +:+ sub +:+ after.

(** The assignments to the deadline among the events of a call. *)
Definition is_write (e : Event) : bool :=
  match e with
  | CalledGetNamespace _ => false
  | WroteOverride _ | WroteDefault _ => true
  end.

Definition writes (evs : list Event) : list Event := List.filter is_write evs.

(** The deadline of the request's object, when it is a pod. *)
Definition deadline (obj : kapi.Object) : option (option Z) :=
  match obj with
  | kapi.PodObject pod => Some (kapi.ActiveDeadlineSeconds (kapi.Spec pod))
  | kapi.OtherObject _ => None
  end.

(** *** What it is to parse as a base-10 signed 64-bit integer

    The reading of a string as a decimal numeral, written without regard to
    how [strconv] proceeds: an optional sign, then one digit or more, and a
    value between [-2^63] and [2^63 - 1]. *)
Definition is_digit (c : ascii) : bool :=
  (48 <=? Z.of_N (N_of_ascii c)) && (Z.of_N (N_of_ascii c) <=? 57).

Fixpoint all_digits (s : string) : bool :=
  match s with
  | EmptyString => true
  | String c s' => is_digit c && all_digits s'
  end.

(** The number read after [acc] when the digits of [s] follow. *)
Fixpoint decimal_value (acc : Z) (s : string) : Z :=
  match s with
  | EmptyString => acc
  | String c s' => decimal_value (acc * 10 + (Z.of_N (N_of_ascii c) - 48)) s'
  end.

Definition decimal (s : string) : option Z :=
  match s with
  | EmptyString => None
  | _ => if all_digits s then Some (decimal_value 0 s) else None
  end.

Definition signed_decimal (s : string) : option Z :=
  match s with
  | EmptyString => None
  | String c rest =>
      if Ascii.eqb c "+" then decimal rest
      else if Ascii.eqb c "-" then Z.opp <$> decimal rest
      else decimal s
  end.

Definition int64_decimal (s : string) : option Z :=
  v ← signed_decimal s;
  if (- 2 ^ 63 <=? v) && (v <? 2 ^ 63) then Some v else None.

(** The three ways an admission decision can end. *)
Inductive Decision := OverrideApplied | DefaultApplied | NoChange.

(** [decided key a attributes out d]: the call of [Admit] on [attributes]
    that ended in [out] made the decision [d].  An override is applied when
    the only write is the resolver's, of the integer that the annotation
    [key] of the namespace parses to, and the pod carries it; the default is
    applied when the only write is that of the configured default and the pod
    carries it; nothing changes when there is no write and the object is as
    it was submitted. *)
Definition decided (key : string) (a : runOnceDuration)
    (attributes : admission.Attributes) (out : Outcome) (d : Decision) : Prop :=
  match d with
  | OverrideApplied =>
      ∃ ns raw v,
        lookup_namespace a (admission.GetNamespace attributes) = Some (inl ns)
        ∧ annotation key ns = Some raw
        ∧ strconv.ParseInt raw = inl v
        ∧ writes (effects out) = [WroteOverride (Some v)]
        ∧ deadline (object out) = Some (Some v)
  | DefaultApplied =>
      ∃ v, (cfg ← config a; api.ActiveDeadlineSecondsOverride cfg) = Some v
           ∧ writes (effects out) = [WroteDefault (Some v)]
           ∧ deadline (object out) = Some (Some v)
  | NoChange =>
      writes (effects out) = []
      ∧ object out = admission.GetObject attributes
  end.

(** The request [attributes] with its object as a call left it. *)
Definition resubmit (attributes : admission.Attributes) (out : Outcome)
  : admission.Attributes :=
  {| admission.GetResource := admission.GetResource attributes;
     admission.GetSubresource := admission.GetSubresource attributes;
     admission.GetNamespace := admission.GetNamespace attributes;
     admission.GetObject := object out |}.

(** ** Sample requests *)
Module Sample.

Definition key : string := "openshift.io/active-deadline-seconds-override".

(** Quoting of a string without special characters. *)
Definition quote (s : string) : string :=
  String "034" (s +:+ String "034" "").

Definition namespace (annotations : option (gmap string string))
  : kapi.Namespace :=
  {| kapi.Name := "batch-ns"; kapi.Annotations := annotations |}.

Definition pod (policy : kapi.RestartPolicy) (seconds : option Z) : kapi.Pod :=
  {| kapi.Spec := {| kapi.RestartPolicy_ := policy;
                     kapi.ActiveDeadlineSeconds := seconds |} |}.

Definition request (p : kapi.Pod) : admission.Attributes :=
  {| admission.GetResource := kapi.Resource "pods";
     admission.GetSubresource := "";
     admission.GetNamespace := "batch-ns";
     admission.GetObject := kapi.PodObject p |}.

(** A cache that knows the namespace [batch-ns] with the given
    annotations, and no other. *)
Definition cache_of (annotations : option (gmap string string))
  : projectcache.ProjectCache :=
  {| projectcache.GetNamespace := λ name,
       if bool_decide (name = "batch-ns") then inl (namespace annotations)
       else inr ("namespace " +:+ name +:+ " does not exist") |}.

(** A cache whose lookups all fail. *)
Definition broken_cache : projectcache.ProjectCache :=
  {| projectcache.GetNamespace := λ _, inr "cache not ready" |}.

Definition plugin (default : option Z)
    (c : option projectcache.ProjectCache) : runOnceDuration :=
  SetProjectCache
    (NewRunOnceDuration (Some {| api.ActiveDeadlineSecondsOverride := default |}))
    c.

End Sample.

(** ** The ways a call of [Admit] ends

    [ends_in key Quote a attributes out]: one constructor per [return] of
    [Admit] and of the resolver, with what it leaves behind.  The function
    [Admit] below is shown to end in one of these ways whenever it returns. *)
Inductive ends_in (key : string) (Quote : string → string) (a : runOnceDuration)
    (attributes : admission.Attributes) : Outcome → Prop :=
| ends_untouched :
    ends_in key Quote a attributes
      {| object := admission.GetObject attributes; effects := [];
         returned := None |}
| ends_mismatch cfg gosyntax :
    config a = Some cfg →
    admission.GetResource attributes = kapi.Resource "pods" →
    admission.GetSubresource attributes = "" →
    admission.GetObject attributes = kapi.OtherObject gosyntax →
    ends_in key Quote a attributes
      {| object := admission.GetObject attributes; effects := [];
         returned :=
           Some (NewForbidden attributes
                   (Errorf ("unexpected object: " +:+ gosyntax))) |}
| ends_lookup_failed cfg pod msg :
    applicable a cfg attributes pod →
    lookup_namespace a (admission.GetNamespace attributes) = Some (inr msg) →
    ends_in key Quote a attributes
      {| object := kapi.PodObject pod;
         effects := [CalledGetNamespace (admission.GetNamespace attributes)];
         returned :=
           Some (NewForbidden attributes
                   (Errorf ("error looking up pod namespace: " +:+ msg))) |}
| ends_malformed cfg pod ns raw err :
    applicable a cfg attributes pod →
    lookup_namespace a (admission.GetNamespace attributes) = Some (inl ns) →
    annotation key ns = Some raw →
    strconv.ParseInt raw = inr err →
    ends_in key Quote a attributes
      {| object := kapi.PodObject pod;
         effects := [CalledGetNamespace (admission.GetNamespace attributes)];
         returned :=
           Some (NewForbidden attributes
                   (Errorf ("cannot parse the ActiveDeadlineSeconds override ("
                              +:+ raw +:+ ") for project " +:+ kapi.Name ns
                              +:+ ": " +:+ strconv.NumError_Error Quote err))) |}
| ends_override cfg pod ns raw v :
    applicable a cfg attributes pod →
    lookup_namespace a (admission.GetNamespace attributes) = Some (inl ns) →
    annotation key ns = Some raw →
    strconv.ParseInt raw = inl v →
    ends_in key Quote a attributes
      {| object := kapi.PodObject (kapi.with_deadline pod (Some v));
         effects := [CalledGetNamespace (admission.GetNamespace attributes);
                     WroteOverride (Some v)];
         returned := None |}
| ends_default cfg pod ns d :
    applicable a cfg attributes pod →
    lookup_namespace a (admission.GetNamespace attributes) = Some (inl ns) →
    annotation key ns = None →
    api.ActiveDeadlineSecondsOverride cfg = Some d →
    ends_in key Quote a attributes
      {| object := kapi.PodObject (kapi.with_deadline pod (Some d));
         effects := [CalledGetNamespace (admission.GetNamespace attributes);
                     WroteDefault (Some d)];
         returned := None |}
| ends_nothing cfg pod ns :
    applicable a cfg attributes pod →
    lookup_namespace a (admission.GetNamespace attributes) = Some (inl ns) →
    annotation key ns = None →
    api.ActiveDeadlineSecondsOverride cfg = None →
    ends_in key Quote a attributes
      {| object := kapi.PodObject pod;
         effects := [CalledGetNamespace (admission.GetNamespace attributes)];
         returned := None |}.

(** ** Reading the configuration, and the registered plugin

    [readConfig] and the function that [init] registers under the name
    [RunOnceDuration].  Three functions they call are not in this file of
    the repository and are taken as they are used:
    [configlatest.ReadYAML], which returns an object (nil for none) or an
    error; [validation.ValidateRunOnceDurationConfig], which returns a list
    of field errors; and [ToAggregate], of which the message of the error
    made of a non-empty list is what matters. *)

(** What [ReadYAML] returns when it returns an object: a
    [*api.RunOnceDurationConfig] or an object of another type, of which only
    the [%#v] rendering is used. *)
Inductive ConfigObject :=
| RunOnceDurationConfigObject (config : api.RunOnceDurationConfig)
| OtherConfigObject (gosyntax : string).

Section Configuration.

Variable Reader : Type.
Variable ReadYAML : Reader → option ConfigObject + string.
Variable FieldError : Type.
Variable ValidateRunOnceDurationConfig :
  api.RunOnceDurationConfig → list FieldError.
Variable ToAggregate_Error : list FieldError → string.

Definition readConfig (reader : Reader)
  : option api.RunOnceDurationConfig + error :=
  match ReadYAML reader with
  | inr err => inr (Errorf err)
  | inl None => inl None
  | inl (Some (OtherConfigObject gosyntax)) =>
      inr (Errorf ("unexpected config object " +:+ gosyntax))
  | inl (Some (RunOnceDurationConfigObject config)) =>
      let errs := ValidateRunOnceDurationConfig config in
      if 0 <? Z.of_nat (length errs) then inr (Errorf (ToAggregate_Error errs))
      else inl (Some config)
  end.

(** The function of [init]: the plugin made of what [readConfig] returns. *)
Definition RunOnceDuration_plugin (reader : Reader) : runOnceDuration + error :=
  match readConfig reader with
  | inr err => inr err
  | inl pluginConfig => inl (NewRunOnceDuration pluginConfig)
  end.

End Configuration.

(** ** Sample configurations *)
Module SampleConfig.

(** A reader is the text it yields.  Three texts are understood. *)
Definition ReadYAML (text : string) : option ConfigObject + string :=
  if bool_decide (text = "") then inl None
  else if bool_decide (text = "activeDeadlineSecondsOverride: 300") then
    inl (Some (RunOnceDurationConfigObject
                 {| api.ActiveDeadlineSecondsOverride := Some 300 |}))
  else if bool_decide (text = "activeDeadlineSecondsOverride: -1") then
    inl (Some (RunOnceDurationConfigObject
                 {| api.ActiveDeadlineSecondsOverride := Some (-1) |}))
  else if bool_decide (text = "kind: PodNodeConstraintsConfig") then
    inl (Some (OtherConfigObject "&api.PodNodeConstraintsConfig{}"))
  else inr "could not find expected key".

(** A validation that refuses a default below zero. *)
Definition Validate (config : api.RunOnceDurationConfig) : list string :=
  match api.ActiveDeadlineSecondsOverride config with
  | Some d => if d <? 0 then ["activeDeadlineSecondsOverride: Invalid value"] else []
  | None => []
  end.

Definition Aggregate (errs : list string) : string :=
  String.concat ", " errs.

End SampleConfig.

Section Plugin.

(** [api.ActiveDeadlineSecondsOverrideAnnotation], a constant of the
    package [runonceduration/api], and [strconv.Quote]. *)
Variable ActiveDeadlineSecondsOverrideAnnotation : string.
Variable Quote : string → string.

Definition applyProjectAnnotationOverride (a : runOnceDuration)
    (namespace : string) : M (bool * option error) :=
  r ← call_GetNamespace (cache a) namespace;
  match r with
  | inr err =>
      mret (false, Some (Errorf ("error looking up pod namespace: " +:+ err)))
  | inl ns =>
      match kapi.Annotations ns with
      | None => mret (false, None)
      | Some annotations =>
          match annotations !! ActiveDeadlineSecondsOverrideAnnotation with
          | None => mret (false, None)
          | Some override =>
              match strconv.ParseInt override with
              | inr err =>
                  mret (false,
                        Some (Errorf
                          ("cannot parse the ActiveDeadlineSeconds override ("
                             +:+ override +:+ ") for project " +:+ kapi.Name ns
                             +:+ ": " +:+ strconv.NumError_Error Quote err)))
              | inl overrideInt64 =>
                  _ ← store_ActiveDeadlineSeconds (Some overrideInt64);
                  _ ← emit (WroteOverride (Some overrideInt64));
                  mret (true, None)
              end
          end
      end
  end.

(** [Admit] from the switch on the restart policy on: the object is a pod,
    the one in the heap, and [a.config] is [cfg]. *)
Definition admitPod (a : runOnceDuration) (cfg : api.RunOnceDurationConfig)
    (attributes : admission.Attributes) : M (option error) :=
  policy ← load_RestartPolicy;
  if bool_decide (policy = kapi.RestartPolicyNever)
     || bool_decide (policy = kapi.RestartPolicyOnFailure)
  then
    '(appliedProjectOverride, err) ←
      applyProjectAnnotationOverride a (admission.GetNamespace attributes);
    match err with
    | Some err => mret (Some (NewForbidden attributes err))
    | None =>
        if negb appliedProjectOverride
           && bool_decide (api.ActiveDeadlineSecondsOverride cfg ≠ None)
        then
          _ ← store_ActiveDeadlineSeconds (api.ActiveDeadlineSecondsOverride cfg);
          _ ← emit (WroteDefault (api.ActiveDeadlineSecondsOverride cfg));
          mret None
        else mret None
    end
  else mret None.

Definition Admit (a : runOnceDuration) (attributes : admission.Attributes)
  : option Outcome :=
  let obj := admission.GetObject attributes in
  match config a with
  | None => Some {| object := obj; effects := []; returned := None |}
  | Some cfg =>
      if bool_decide (admission.GetResource attributes ≠ kapi.Resource "pods")
         || (0 <? Z.of_nat (String.length (admission.GetSubresource attributes)))
      then Some {| object := obj; effects := []; returned := None |}
      else
        match obj with
        | kapi.OtherObject gosyntax =>
            Some {| object := obj; effects := [];
                    returned :=
                      Some (NewForbidden attributes
                              (Errorf ("unexpected object: " +:+ gosyntax))) |}
        | kapi.PodObject pod =>
            match admitPod a cfg attributes {| pod_cell := pod; events := [] |} with
            | None => None
            | Some (err, h) =>
                Some {| object := kapi.PodObject (pod_cell h);
                        effects := events h;
                        returned := err |}
            end
        end
  end.

(** *** The resolver, case by case *)

Lemma call_GetNamespace_found a name r h :
  lookup_namespace a name = Some r →
  call_GetNamespace (cache a) name h
  = Some (r, {| pod_cell := pod_cell h;
                events := events h ++ [CalledGetNamespace name] |}).
Proof.
  unfold lookup_namespace, call_GetNamespace.
  destruct (cache a) as [c|]; simpl; [|discriminate].
  intros [= <-]. reflexivity.
Qed.

Lemma resolver_lookup_fails a name msg h :
  lookup_namespace a name = Some (inr msg) →
  applyProjectAnnotationOverride a name h
  = Some ((false, Some (Errorf ("error looking up pod namespace: " +:+ msg))),
          {| pod_cell := pod_cell h;
             events := events h ++ [CalledGetNamespace name] |}).
Proof.
  intros Hlook. unfold applyProjectAnnotationOverride, mbind, M_mbind, M_bind.
  rewrite (call_GetNamespace_found _ _ _ _ Hlook). reflexivity.
Qed.

Lemma resolver_no_override a name ns h :
  lookup_namespace a name = Some (inl ns) →
  annotation ActiveDeadlineSecondsOverrideAnnotation ns = None →
  applyProjectAnnotationOverride a name h
  = Some ((false, None),
          {| pod_cell := pod_cell h;
             events := events h ++ [CalledGetNamespace name] |}).
Proof.
  intros Hlook Hann. unfold applyProjectAnnotationOverride, mbind, M_mbind, M_bind.
  rewrite (call_GetNamespace_found _ _ _ _ Hlook).
  unfold annotation in Hann.
  destruct (kapi.Annotations ns) as [m|]; simpl in Hann; [|reflexivity].
  rewrite Hann. reflexivity.
Qed.

Lemma resolver_malformed a name ns raw err h :
  lookup_namespace a name = Some (inl ns) →
  annotation ActiveDeadlineSecondsOverrideAnnotation ns = Some raw →
  strconv.ParseInt raw = inr err →
  applyProjectAnnotationOverride a name h
  = Some ((false,
           Some (Errorf ("cannot parse the ActiveDeadlineSeconds override ("
                           +:+ raw +:+ ") for project " +:+ kapi.Name ns
                           +:+ ": " +:+ strconv.NumError_Error Quote err))),
          {| pod_cell := pod_cell h;
             events := events h ++ [CalledGetNamespace name] |}).
Proof.
  intros Hlook Hann Hparse.
  unfold applyProjectAnnotationOverride, mbind, M_mbind, M_bind.
  rewrite (call_GetNamespace_found _ _ _ _ Hlook).
  unfold annotation in Hann.
  destruct (kapi.Annotations ns) as [m|]; simpl in Hann; [|discriminate].
  rewrite Hann, Hparse. reflexivity.
Qed.

Lemma resolver_applies a name ns raw v h :
  lookup_namespace a name = Some (inl ns) →
  annotation ActiveDeadlineSecondsOverrideAnnotation ns = Some raw →
  strconv.ParseInt raw = inl v →
  applyProjectAnnotationOverride a name h
  = Some ((true, None),
          {| pod_cell := kapi.with_deadline (pod_cell h) (Some v);
             events := events h
                         ++ [CalledGetNamespace name; WroteOverride (Some v)] |}).
Proof.
  intros Hlook Hann Hparse.
  unfold applyProjectAnnotationOverride, mbind, M_mbind, M_bind.
  rewrite (call_GetNamespace_found _ _ _ _ Hlook).
  unfold annotation in Hann.
  destruct (kapi.Annotations ns) as [m|]; simpl in Hann; [|discriminate].
  rewrite Hann, Hparse. simpl.
  rewrite <- app_assoc. reflexivity.
Qed.

(** *** [Admit] on a request that passes its filters *)

Lemma subresource_empty (s : string) :
  (0 <? Z.of_nat (String.length s)) = false ↔ s = "".
Proof.
  destruct s as [|c s]; simpl; split; done.
Qed.

Lemma Admit_applicable a cfg attributes pod :
  applicable a cfg attributes pod →
  Admit a attributes
  = match applyProjectAnnotationOverride a (admission.GetNamespace attributes)
            {| pod_cell := pod; events := [] |} with
    | None => None
    | Some ((_, Some err), h) =>
        Some {| object := kapi.PodObject (pod_cell h);
                effects := events h;
                returned := Some (NewForbidden attributes err) |}
    | Some ((applied, None), h) =>
        match api.ActiveDeadlineSecondsOverride cfg with
        | Some d =>
            if applied then
              Some {| object := kapi.PodObject (pod_cell h);
                      effects := events h;
                      returned := None |}
            else
              Some {| object :=
                        kapi.PodObject (kapi.with_deadline (pod_cell h) (Some d));
                      effects := events h ++ [WroteDefault (Some d)];
                      returned := None |}
        | None =>
            Some {| object := kapi.PodObject (pod_cell h);
                    effects := events h;
                    returned := None |}
        end
    end.
Proof.
  intros (Hcfg & Hres & Hsub & Hobj & Hpol).
  unfold Admit. rewrite Hcfg, Hres, Hsub, Hobj.
  rewrite bool_decide_eq_false_2 by (intros H; by apply H). simpl.
  unfold admitPod, mbind, M_mbind, M_bind, load_RestartPolicy. simpl.
  replace (bool_decide _ || bool_decide _) with true; cycle 1.
  { symmetry. apply orb_true_iff.
    destruct Hpol as [H|H]; [left|right]; by apply bool_decide_eq_true_2. }
  destruct (applyProjectAnnotationOverride _ _ _) as [[[applied [err|]] h]|];
    try reflexivity.
  destruct (api.ActiveDeadlineSecondsOverride cfg) as [d|], applied;
    reflexivity.
Qed.

(** The filters of [Admit] either let the request through, or end the call
    before the pod is written and before the cache is asked. *)
Lemma Admit_filters a attributes :
  (∃ cfg pod, applicable a cfg attributes pod)
  ∨ (∃ r, Admit a attributes
          = Some {| object := admission.GetObject attributes;
                    effects := []; returned := r |}).
Proof.
  unfold Admit.
  destruct (config a) as [cfg|] eqn:Hcfg; [|right; eauto].
  destruct (bool_decide _ || _) eqn:Hfilter; [right; eauto|].
  apply orb_false_iff in Hfilter as [Hres Hsub].
  apply bool_decide_eq_false_1 in Hres. apply dec_stable in Hres.
  apply subresource_empty in Hsub.
  destruct (admission.GetObject attributes) as [pod|gosyntax] eqn:Hobj;
    [|right; eauto].
  unfold admitPod, mbind, M_mbind, M_bind, load_RestartPolicy. simpl.
  destruct (bool_decide _ || bool_decide _) eqn:Hpol; [|right; eauto].
  left. exists cfg, pod. repeat split; try done.
  apply orb_true_iff in Hpol as [H|H]; apply bool_decide_eq_true_1 in H;
    [left|right]; done.
Qed.

(** A validated plugin has a cache, which answers every lookup. *)
Lemma Validate_lookup a name :
  Validate a = None → ∃ r, lookup_namespace a name = Some r.
Proof.
  unfold Validate, lookup_namespace.
  destruct (cache a) as [c|]; [eauto|discriminate].
Qed.

(** With a validated plugin [Admit] returns: it does not panic. *)
Lemma Admit_returns a attributes :
  Validate a = None → is_Some (Admit a attributes).
Proof.
  intros Hval.
  destruct (Admit_filters a attributes) as [(cfg & pod & Happ)|[r ->]]; [|eauto].
  rewrite (Admit_applicable _ _ _ _ Happ).
  destruct (Validate_lookup a (admission.GetNamespace attributes) Hval)
    as [[ns|msg] Hlook].
  - destruct (annotation ActiveDeadlineSecondsOverrideAnnotation ns)
      as [raw|] eqn:Hann.
    + destruct (strconv.ParseInt raw) as [v|err] eqn:Hparse.
      * rewrite (resolver_applies _ _ _ _ _ _ Hlook Hann Hparse).
        destruct (api.ActiveDeadlineSecondsOverride cfg); eauto.
      * rewrite (resolver_malformed _ _ _ _ _ _ Hlook Hann Hparse). eauto.
    + rewrite (resolver_no_override _ _ _ _ Hlook Hann).
      destruct (api.ActiveDeadlineSecondsOverride cfg); eauto.
  - rewrite (resolver_lookup_fails _ _ _ _ Hlook). eauto.
Qed.

(** *** The admission decision *)

(** C1: for a run-once pod whose namespace carries an override annotation
    that parses, [Admit] writes the parsed value to the deadline of the pod
    and returns nil.  The configuration [cfg] is arbitrary: whatever
    default it holds is not written. *)
Theorem override_wins a cfg attributes pod ns raw v :
  applicable a cfg attributes pod →
  lookup_namespace a (admission.GetNamespace attributes) = Some (inl ns) →
  annotation ActiveDeadlineSecondsOverrideAnnotation ns = Some raw →
  strconv.ParseInt raw = inl v →
  Admit a attributes
  = Some {| object := kapi.PodObject (kapi.with_deadline pod (Some v));
            effects := [CalledGetNamespace (admission.GetNamespace attributes);
                        WroteOverride (Some v)];
            returned := None |}.
Proof.
  intros Happ Hlook Hann Hparse.
  rewrite (Admit_applicable _ _ _ _ Happ).
  rewrite (resolver_applies _ _ _ _ _ _ Hlook Hann Hparse). simpl.
  destruct (api.ActiveDeadlineSecondsOverride cfg); reflexivity.
Qed.

Lemma append_assoc (s1 s2 s3 : string) :
  (s1 +:+ s2) +:+ s3 = s1 +:+ s2 +:+ s3.
Proof.
  induction s1 as [|c s1 IH]; [done|].
  change (String c ((s1 +:+ s2) +:+ s3) = String c (s1 +:+ s2 +:+ s3)).
  by rewrite IH.
Qed.

Lemma occurs_in_middle (before sub after : string) :
  occurs_in sub (before +:+ sub +:+ after).
Proof. by exists before, after. Qed.

(** C2: for a run-once pod whose namespace carries an override annotation
    that does not parse, [Admit] returns the error that
    [admission.NewForbidden] makes of an error whose message contains the
    raw annotation and the name of the namespace, and the pod is as it was
    submitted. *)
Theorem malformed_override_rejected a cfg attributes pod ns raw err :
  applicable a cfg attributes pod →
  lookup_namespace a (admission.GetNamespace attributes) = Some (inl ns) →
  annotation ActiveDeadlineSecondsOverrideAnnotation ns = Some raw →
  strconv.ParseInt raw = inr err →
  ∃ message,
    Admit a attributes
    = Some {| object := kapi.PodObject pod;
              effects := [CalledGetNamespace (admission.GetNamespace attributes)];
              returned := Some (NewForbidden attributes (Errorf message)) |}
    ∧ occurs_in raw message
    ∧ occurs_in (kapi.Name ns) message.
Proof.
  intros Happ Hlook Hann Hparse.
  rewrite (Admit_applicable _ _ _ _ Happ).
  rewrite (resolver_malformed _ _ _ _ _ _ Hlook Hann Hparse). simpl.
  eexists. split; [reflexivity|]. split.
  - apply occurs_in_middle.
  - exists ("cannot parse the ActiveDeadlineSeconds override (" +:+ raw
              +:+ ") for project "),
           (": " +:+ strconv.NumError_Error Quote err).
    by rewrite !append_assoc.
Qed.

(** C3: for a run-once pod whose namespace has no override annotation,
    [Admit] writes the configured default to the deadline of the pod,
    whatever deadline the pod was submitted with. *)
Theorem default_applied a cfg attributes pod ns d :
  applicable a cfg attributes pod →
  lookup_namespace a (admission.GetNamespace attributes) = Some (inl ns) →
  annotation ActiveDeadlineSecondsOverrideAnnotation ns = None →
  api.ActiveDeadlineSecondsOverride cfg = Some d →
  Admit a attributes
  = Some {| object := kapi.PodObject (kapi.with_deadline pod (Some d));
            effects := [CalledGetNamespace (admission.GetNamespace attributes);
                        WroteDefault (Some d)];
            returned := None |}.
Proof.
  intros Happ Hlook Hann Hdefault.
  rewrite (Admit_applicable _ _ _ _ Happ).
  rewrite (resolver_no_override _ _ _ _ Hlook Hann), Hdefault. reflexivity.
Qed.

(** C5: for a pod whose restart policy is [Always], [Admit] returns nil,
    leaves the pod as it was submitted and does not ask the cache, whatever
    the configuration, the request and the cache are (a plugin without a
    cache included). *)
Theorem always_untouched a attributes pod :
  admission.GetObject attributes = kapi.PodObject pod →
  kapi.RestartPolicy_ (kapi.Spec pod) = kapi.RestartPolicyAlways →
  Admit a attributes
  = Some {| object := kapi.PodObject pod; effects := []; returned := None |}.
Proof.
  intros Hobj Hpol. unfold Admit. rewrite Hobj.
  destruct (config a) as [cfg|]; [|reflexivity].
  destruct (bool_decide _ || _); [reflexivity|].
  unfold admitPod, mbind, M_mbind, M_bind, load_RestartPolicy. simpl.
  rewrite Hpol. reflexivity.
Qed.

(** C6: for a run-once pod whose namespace has no override annotation,
    under a configuration without a default, [Admit] returns nil and the
    pod is as it was submitted. *)
Theorem nothing_to_apply a cfg attributes pod ns :
  applicable a cfg attributes pod →
  lookup_namespace a (admission.GetNamespace attributes) = Some (inl ns) →
  annotation ActiveDeadlineSecondsOverrideAnnotation ns = None →
  api.ActiveDeadlineSecondsOverride cfg = None →
  Admit a attributes
  = Some {| object := kapi.PodObject pod;
            effects := [CalledGetNamespace (admission.GetNamespace attributes)];
            returned := None |}.
Proof.
  intros Happ Hlook Hann Hdefault.
  rewrite (Admit_applicable _ _ _ _ Happ).
  rewrite (resolver_no_override _ _ _ _ Hlook Hann), Hdefault. reflexivity.
Qed.

(** C7: when the lookup of the namespace fails, the resolver returns
    [false] and an error whose message is the one of the lookup error after
    ["error looking up pod namespace: "], and writes nothing; [Admit]
    returns what [admission.NewForbidden] makes of that error, and the pod
    is as it was submitted. *)
Theorem lookup_failure_rejected a cfg attributes pod msg :
  applicable a cfg attributes pod →
  lookup_namespace a (admission.GetNamespace attributes) = Some (inr msg) →
  (∀ h,
     applyProjectAnnotationOverride a (admission.GetNamespace attributes) h
     = Some ((false,
              Some (Errorf ("error looking up pod namespace: " +:+ msg))),
             {| pod_cell := pod_cell h;
                events := events h
                  ++ [CalledGetNamespace (admission.GetNamespace attributes)] |}))
  ∧ Admit a attributes
    = Some {| object := kapi.PodObject pod;
              effects := [CalledGetNamespace (admission.GetNamespace attributes)];
              returned :=
                Some (NewForbidden attributes
                        (Errorf ("error looking up pod namespace: " +:+ msg))) |}.
Proof.
  intros Happ Hlook. split.
  - intros h. by apply resolver_lookup_fails.
  - rewrite (Admit_applicable _ _ _ _ Happ).
    rewrite (resolver_lookup_fails _ _ _ _ Hlook). reflexivity.
Qed.

(** C8: when no configuration is set, or the resource is not [pods], or the
    request has a subresource, [Admit] returns nil with the object as it
    was submitted and without a call to the cache.  The object need not be
    a pod and the plugin need not have a cache: neither is looked at. *)
Theorem not_applicable_noop a attributes :
  config a = None
  ∨ admission.GetResource attributes ≠ kapi.Resource "pods"
  ∨ admission.GetSubresource attributes ≠ "" →
  Admit a attributes
  = Some {| object := admission.GetObject attributes;
            effects := []; returned := None |}.
Proof.
  intros Hskip. unfold Admit.
  destruct (config a) as [cfg|]; [|reflexivity].
  destruct Hskip as [Hcfg|[Hres|Hsub]]; [discriminate| |].
  - by rewrite bool_decide_eq_true_2.
  - destruct (0 <? _) eqn:Hlen; [by rewrite orb_true_r|].
    by apply subresource_empty in Hlen.
Qed.

(** C10: whenever the override annotation parses, the resolver writes the
    parsed value to the deadline of the pod and returns [true] and no
    error.  The value [v] is any result of [strconv.ParseInt], negative
    ones included: its sign is not looked at. *)
Theorem resolver_accepts_any_integer a name ns raw v h :
  lookup_namespace a name = Some (inl ns) →
  annotation ActiveDeadlineSecondsOverrideAnnotation ns = Some raw →
  strconv.ParseInt raw = inl v →
  applyProjectAnnotationOverride a name h
  = Some ((true, None),
          {| pod_cell := kapi.with_deadline (pod_cell h) (Some v);
             events := events h
                         ++ [CalledGetNamespace name; WroteOverride (Some v)] |}).
Proof. apply resolver_applies. Qed.

(** *** One decision per call, and the same one when asked again *)

(** The writes of an outcome tell the three decisions apart. *)
Lemma decided_writes a attributes out d :
  decided ActiveDeadlineSecondsOverrideAnnotation a attributes out d →
  match d with
  | OverrideApplied => ∃ v, writes (effects out) = [WroteOverride v]
  | DefaultApplied => ∃ v, writes (effects out) = [WroteDefault v]
  | NoChange => writes (effects out) = []
  end.
Proof.
  destruct d; simpl.
  - intros (_ & _ & v & _ & _ & _ & Hw & _). eauto.
  - intros (v & _ & Hw & _). eauto.
  - by intros [Hw _].
Qed.

(** Settles the decision of the outcome at hand: [d] holds, and the writes
    rule out the other two. *)
Ltac decision d :=
  exists d; split;
  [ simpl; eauto 10
  | intros d' Hother; apply decided_writes in Hother; simpl in Hother;
    destruct d'; first [ reflexivity | by destruct Hother | done ] ].

(** C4: a call of [Admit] on a validated plugin returns, and exactly one of
    the three decisions describes it: the override of the namespace was
    written, or the default of the configuration was written, or nothing
    was written and the object is as submitted. *)
Theorem exactly_one_decision a attributes :
  Validate a = None →
  ∃ out, Admit a attributes = Some out
         ∧ exists! d,
             decided ActiveDeadlineSecondsOverrideAnnotation a attributes out d.
Proof.
  intros Hval.
  destruct (Admit_filters a attributes) as [(cfg & pod & Happ)|[r ->]];
    [|eexists; split; [reflexivity|decision NoChange]].
  rewrite (Admit_applicable _ _ _ _ Happ).
  destruct Happ as (Hcfg & _ & _ & Hobj & _).
  destruct (Validate_lookup a (admission.GetNamespace attributes) Hval)
    as [[ns|msg] Hlook].
  - destruct (annotation ActiveDeadlineSecondsOverrideAnnotation ns)
      as [raw|] eqn:Hann.
    + destruct (strconv.ParseInt raw) as [v|err] eqn:Hparse.
      * rewrite (resolver_applies _ _ _ _ _ _ Hlook Hann Hparse).
        destruct (api.ActiveDeadlineSecondsOverride cfg);
          (eexists; split; [reflexivity|decision OverrideApplied]).
      * rewrite (resolver_malformed _ _ _ _ _ _ Hlook Hann Hparse).
        eexists; split; [reflexivity|decision NoChange].
    + rewrite (resolver_no_override _ _ _ _ Hlook Hann).
      destruct (api.ActiveDeadlineSecondsOverride cfg) as [d|] eqn:Hdefault;
        (eexists; split; [reflexivity|]).
      * assert (Hd : (cfg ← config a; api.ActiveDeadlineSecondsOverride cfg)
                     = Some d) by (by rewrite Hcfg).
        decision DefaultApplied.
      * decision NoChange.
  - rewrite (resolver_lookup_fails _ _ _ _ Hlook).
    eexists; split; [reflexivity|decision NoChange].
Qed.

Lemma resubmit_unchanged attributes out :
  object out = admission.GetObject attributes →
  resubmit attributes out = attributes.
Proof. intros Hobj. unfold resubmit. rewrite Hobj. by destruct attributes. Qed.

Lemma applicable_resubmit a cfg attributes pod out v :
  applicable a cfg attributes pod →
  object out = kapi.PodObject (kapi.with_deadline pod v) →
  applicable a cfg (resubmit attributes out) (kapi.with_deadline pod v).
Proof.
  intros (Hcfg & Hres & Hsub & Hobj & Hpol) Hout. by repeat split.
Qed.

(** C9: a call of [Admit] on a validated plugin returns, and a second call
    with the same plugin, the same cache and the object as the first call
    left it ends exactly as the first: the same error or nil, the same
    pod, with the same deadline. *)
Theorem Admit_idempotent a attributes :
  Validate a = None →
  ∃ out, Admit a attributes = Some out
         ∧ Admit a (resubmit attributes out) = Some out.
Proof.
  intros Hval.
  destruct (Admit_filters a attributes) as [(cfg & pod & Happ)|[r Hout]].
  2: { eexists. split; [exact Hout|]. by rewrite resubmit_unchanged. }
  assert (Hobj : admission.GetObject attributes = kapi.PodObject pod)
    by apply Happ.
  pose proof (Admit_applicable _ _ _ _ Happ) as Hfirst.
  destruct (Validate_lookup a (admission.GetNamespace attributes) Hval)
    as [[ns|msg] Hlook].
  - destruct (annotation ActiveDeadlineSecondsOverrideAnnotation ns)
      as [raw|] eqn:Hann.
    + destruct (strconv.ParseInt raw) as [v|err] eqn:Hparse.
      * rewrite (resolver_applies _ _ _ _ _ _ Hlook Hann Hparse) in Hfirst.
        assert (Hout : Admit a attributes
                       = Some {| object :=
                                   kapi.PodObject (kapi.with_deadline pod (Some v));
                                 effects :=
                                   [CalledGetNamespace
                                      (admission.GetNamespace attributes);
                                    WroteOverride (Some v)];
                                 returned := None |})
          by (rewrite Hfirst; by destruct (api.ActiveDeadlineSecondsOverride cfg)).
        eexists. split; [exact Hout|].
        erewrite Admit_applicable by (by eapply applicable_resubmit).
        simpl admission.GetNamespace.
        rewrite (resolver_applies _ _ _ _ _ _ Hlook Hann Hparse).
        by destruct (api.ActiveDeadlineSecondsOverride cfg).
      * rewrite (resolver_malformed _ _ _ _ _ _ Hlook Hann Hparse) in Hfirst.
        eexists. split; [exact Hfirst|].
        rewrite resubmit_unchanged by (by rewrite Hobj). exact Hfirst.
    + rewrite (resolver_no_override _ _ _ _ Hlook Hann) in Hfirst.
      destruct (api.ActiveDeadlineSecondsOverride cfg) as [d|] eqn:Hdefault.
      * eexists. split; [exact Hfirst|].
        erewrite Admit_applicable by (by eapply applicable_resubmit).
        simpl admission.GetNamespace.
        rewrite (resolver_no_override _ _ _ _ Hlook Hann), Hdefault.
        reflexivity.
      * eexists. split; [exact Hfirst|].
        rewrite resubmit_unchanged by (by rewrite Hobj). exact Hfirst.
  - rewrite (resolver_lookup_fails _ _ _ _ Hlook) in Hfirst.
    eexists. split; [exact Hfirst|].
    rewrite resubmit_unchanged by (by rewrite Hobj). exact Hfirst.
Qed.

(** *** Every way [Admit] ends *)

Lemma resolver_panics a name h :
  lookup_namespace a name = None →
  applyProjectAnnotationOverride a name h = None.
Proof.
  unfold lookup_namespace, applyProjectAnnotationOverride, call_GetNamespace.
  destruct (cache a) as [c|]; [discriminate|reflexivity].
Qed.

(** Before the restart policy is looked at, [Admit] either goes on with a
    run-once pod, or returns nil, or refuses an object that is no pod. *)
Lemma Admit_early a attributes :
  (∃ cfg pod, applicable a cfg attributes pod)
  ∨ Admit a attributes
    = Some {| object := admission.GetObject attributes; effects := [];
              returned := None |}
  ∨ (∃ cfg gosyntax,
       config a = Some cfg
       ∧ admission.GetResource attributes = kapi.Resource "pods"
       ∧ admission.GetSubresource attributes = ""
       ∧ admission.GetObject attributes = kapi.OtherObject gosyntax
       ∧ Admit a attributes
         = Some {| object := admission.GetObject attributes; effects := [];
                   returned :=
                     Some (NewForbidden attributes
                             (Errorf ("unexpected object: " +:+ gosyntax))) |}).
Proof.
  unfold Admit.
  destruct (config a) as [cfg|] eqn:Hcfg; [|right; left; reflexivity].
  destruct (bool_decide _ || _) eqn:Hfilter; [right; left; reflexivity|].
  apply orb_false_iff in Hfilter as [Hres Hsub].
  apply bool_decide_eq_false_1 in Hres. apply dec_stable in Hres.
  apply subresource_empty in Hsub.
  destruct (admission.GetObject attributes) as [pod|gosyntax] eqn:Hobj.
  - unfold admitPod, mbind, M_mbind, M_bind, load_RestartPolicy. simpl.
    destruct (bool_decide _ || bool_decide _) eqn:Hpol;
      [|right; left; reflexivity].
    left. exists cfg, pod. repeat split; try done.
    apply orb_true_iff in Hpol as [H|H]; apply bool_decide_eq_true_1 in H;
      [left|right]; done.
  - right. right. by exists cfg, gosyntax.
Qed.

Lemma Admit_ends_in a attributes out :
  Admit a attributes = Some out →
  ends_in ActiveDeadlineSecondsOverrideAnnotation Quote a attributes out.
Proof.
  destruct (Admit_early a attributes)
    as [(cfg & pod & Happ)|[->|(cfg & g & Hcfg & Hres & Hsub & Hobj & ->)]].
  - rewrite (Admit_applicable _ _ _ _ Happ).
    destruct (lookup_namespace a (admission.GetNamespace attributes))
      as [[ns|msg]|] eqn:Hlook.
    + destruct (annotation ActiveDeadlineSecondsOverrideAnnotation ns)
        as [raw|] eqn:Hann.
      * destruct (strconv.ParseInt raw) as [v|err] eqn:Hparse.
        -- rewrite (resolver_applies _ _ _ _ _ _ Hlook Hann Hparse).
           destruct (api.ActiveDeadlineSecondsOverride cfg);
             intros [= <-]; by eapply ends_override.
        -- rewrite (resolver_malformed _ _ _ _ _ _ Hlook Hann Hparse).
           intros [= <-]. by eapply ends_malformed.
      * rewrite (resolver_no_override _ _ _ _ Hlook Hann).
        destruct (api.ActiveDeadlineSecondsOverride cfg) as [d|] eqn:Hdefault;
          intros [= <-]; [by eapply ends_default|by eapply ends_nothing].
    + rewrite (resolver_lookup_fails _ _ _ _ Hlook).
      intros [= <-]. by eapply ends_lookup_failed.
    + by rewrite (resolver_panics _ _ _ Hlook).
  - intros [= <-]. constructor.
  - intros [= <-]. by eapply ends_mismatch.
Qed.

Lemma type_mismatch_helper a cfg attributes gosyntax :
  config a = Some cfg →
  admission.GetResource attributes = kapi.Resource "pods" →
  admission.GetSubresource attributes = "" →
  admission.GetObject attributes = kapi.OtherObject gosyntax →
  Admit a attributes
  = Some {| object := kapi.OtherObject gosyntax; effects := [];
            returned :=
              Some (NewForbidden attributes
                      (Errorf ("unexpected object: " +:+ gosyntax))) |}.
Proof.
  intros Hcfg Hres Hsub Hobj. unfold Admit. rewrite Hcfg, Hres, Hsub, Hobj.
  by rewrite bool_decide_eq_false_2 by (intros H; by apply H).
Qed.

(** *** Further properties of [Admit] *)

(** An object that is no pod, in a request that is for [pods] without a
    subresource and under a configured policy, is refused with an error that
    shows the object; the cache is not asked, and need not be there. *)
Theorem type_mismatch_rejected a cfg attributes gosyntax :
  config a = Some cfg →
  admission.GetResource attributes = kapi.Resource "pods" →
  admission.GetSubresource attributes = "" →
  admission.GetObject attributes = kapi.OtherObject gosyntax →
  Admit a attributes
  = Some {| object := kapi.OtherObject gosyntax; effects := [];
            returned :=
              Some (NewForbidden attributes
                      (Errorf ("unexpected object: " +:+ gosyntax))) |}.
Proof. apply type_mismatch_helper. Qed.

(** A pod whose restart policy is any string other than [Never] and
    [OnFailure], the empty one and unknown ones included, is left alone:
    nil is returned, nothing is written and the cache is not asked. *)
Theorem other_policies_untouched a attributes pod :
  admission.GetObject attributes = kapi.PodObject pod →
  ¬ run_once pod →
  Admit a attributes
  = Some {| object := kapi.PodObject pod; effects := []; returned := None |}.
Proof.
  intros Hobj Hpol. unfold Admit. rewrite Hobj.
  destruct (config a) as [cfg|]; [|reflexivity].
  destruct (bool_decide _ || _); [reflexivity|].
  unfold admitPod, mbind, M_mbind, M_bind, load_RestartPolicy. simpl.
  replace (bool_decide _ || bool_decide _) with false; [reflexivity|].
  symmetry. apply orb_false_iff.
  split; apply bool_decide_eq_false_2; intros H; apply Hpol; [by left|by right].
Qed.


(** A request that [Admit] refuses is left as it was submitted: nothing was
    written to it, and the error is what [admission.NewForbidden] makes of
    the request and of an error with a message. *)
Theorem rejected_not_mutated a attributes out err :
  Admit a attributes = Some out →
  returned out = Some err →
  object out = admission.GetObject attributes
  ∧ writes (effects out) = []
  ∧ ∃ message, err = NewForbidden attributes (Errorf message).
Proof.
  intros Hout Herr. apply Admit_ends_in in Hout.
  destruct Hout as [|cfg g _ _ _ Hobj|cfg pod msg Happ _|cfg pod ns raw e Happ _ _ _
                   | | |]; simpl in *; try discriminate;
    injection Herr as <-; repeat split; eauto;
    symmetry; apply Happ.
Qed.

(** [Admit] never removes a deadline: a pod submitted with one has one
    afterwards. *)
Theorem deadline_never_cleared a attributes pod out seconds :
  Admit a attributes = Some out →
  admission.GetObject attributes = kapi.PodObject pod →
  kapi.ActiveDeadlineSeconds (kapi.Spec pod) = Some seconds →
  ∃ seconds', deadline (object out) = Some (Some seconds').
Proof.
  intros Hout Hobj Hsec. apply Admit_ends_in in Hout.
  assert (Hsame : ∀ cfg pod', applicable a cfg attributes pod' → pod' = pod).
  { intros cfg pod' (_ & _ & _ & Hobj' & _). congruence. }
  destruct Hout as [|cfg g _ _ _ Hobj'|cfg p msg Happ _|cfg p ns raw e Happ _ _ _
                   |cfg p ns raw v Happ _ _ _|cfg p ns d Happ _ _ _
                   |cfg p ns Happ _ _ _]; simpl;
    try (rewrite (Hsame _ _ Happ)); try congruence;
    rewrite ?Hobj; simpl; rewrite ?Hsec; eauto.
Qed.

(** The project cache is asked at most once in a call, for the namespace of
    the request, and before anything is written; at most one write follows. *)
Theorem lookup_once_before_write a attributes out :
  Admit a attributes = Some out →
  effects out = []
  ∨ ∃ ws, effects out
          = CalledGetNamespace (admission.GetNamespace attributes) :: ws
          ∧ writes ws = ws
          ∧ (length ws ≤ 1)%nat.
Proof.
  intros Hout. apply Admit_ends_in in Hout.
  destruct Hout; simpl; eauto; right; eexists; (split; [reflexivity|]);
    simpl; split; (reflexivity || lia).
Qed.

(** Of a namespace only its name and its override annotation matter: two
    plugins with the same configuration whose caches answer with namespaces
    that agree on these two end every request in the same way. *)
Theorem only_override_annotation_matters a1 a2 attributes ns1 ns2 :
  config a1 = config a2 →
  lookup_namespace a1 (admission.GetNamespace attributes) = Some (inl ns1) →
  lookup_namespace a2 (admission.GetNamespace attributes) = Some (inl ns2) →
  kapi.Name ns1 = kapi.Name ns2 →
  annotation ActiveDeadlineSecondsOverrideAnnotation ns1
  = annotation ActiveDeadlineSecondsOverrideAnnotation ns2 →
  Admit a1 attributes = Admit a2 attributes.
Proof.
  intros Hcfg Hlook1 Hlook2 Hname Hann.
  assert (Hresolve : ∀ h,
            applyProjectAnnotationOverride a1 (admission.GetNamespace attributes) h
            = applyProjectAnnotationOverride a2 (admission.GetNamespace attributes) h).
  { intros h.
    destruct (annotation ActiveDeadlineSecondsOverrideAnnotation ns1)
      as [raw|] eqn:Hann1; symmetry in Hann.
    - destruct (strconv.ParseInt raw) as [v|err] eqn:Hparse.
      + rewrite (resolver_applies _ _ _ _ _ _ Hlook1 Hann1 Hparse).
        by rewrite (resolver_applies _ _ _ _ _ _ Hlook2 Hann Hparse).
      + rewrite (resolver_malformed _ _ _ _ _ _ Hlook1 Hann1 Hparse).
        rewrite (resolver_malformed _ _ _ _ _ _ Hlook2 Hann Hparse).
        by rewrite Hname.
    - rewrite (resolver_no_override _ _ _ _ Hlook1 Hann1).
      by rewrite (resolver_no_override _ _ _ _ Hlook2 Hann). }
  destruct (Admit_early a1 attributes)
    as [(cfg & pod & Happ)|[Hret|(cfg & g & Hc & Hres & Hsub & Hobj & Hret)]].
  - assert (Happ2 : applicable a2 cfg attributes pod).
    { destruct Happ as (Hc & Hrest). split; [congruence|done]. }
    rewrite (Admit_applicable _ _ _ _ Happ), (Admit_applicable _ _ _ _ Happ2).
    by rewrite Hresolve.
  - rewrite Hret. unfold Admit in *. rewrite <- Hcfg.
    destruct (config a1) as [cfg|]; [|done].
    destruct (bool_decide _ || _); [done|].
    destruct (admission.GetObject attributes) as [pod|g]; [|done].
    unfold admitPod, mbind, M_mbind, M_bind, load_RestartPolicy in *.
    simpl in *.
    destruct (bool_decide _ || bool_decide _); [|done].
    by rewrite <- Hresolve.
  - rewrite Hret. symmetry.
    assert (Hc2 : config a2 = Some cfg) by congruence.
    pose proof (type_mismatch_helper a2 cfg attributes g Hc2 Hres Hsub Hobj) as H2.
    by rewrite H2, Hobj.
Qed.

(** A plugin as [NewRunOnceDuration] makes it is not valid; once it is given
    a cache it is, its configuration is the one it was made with, and
    [Admit] returns on every request. *)
Theorem plugin_needs_cache cfg c attributes :
  Validate (NewRunOnceDuration cfg)
  = Some (Errorf "RunOnceDuration plugin requires a project cache")
  ∧ Validate (SetProjectCache (NewRunOnceDuration cfg) (Some c)) = None
  ∧ config (SetProjectCache (NewRunOnceDuration cfg) (Some c)) = cfg
  ∧ is_Some (Admit (SetProjectCache (NewRunOnceDuration cfg) (Some c)) attributes).
Proof.
  repeat split. by apply Admit_returns.
Qed.

End Plugin.


(** ** [strconv.ParseInt] reads decimal numerals *)

(** The byte cases of [ParseUint] against the decimal digits: a letter has a
    value of 10 or more, which base 10 refuses. *)
Lemma digit_is_digit c :
  if is_digit c
  then strconv.digit c = Some (Z.of_N (N_of_ascii c) - 48)
       ∧ 0 <= Z.of_N (N_of_ascii c) - 48 < 10
  else strconv.digit c = None ∨ ∃ v, strconv.digit c = Some v ∧ 10 <= v.
Proof.
  unfold is_digit, strconv.digit.
  set (n := Z.of_N (N_of_ascii c)).
  destruct (48 <=? n) eqn:H1, (n <=? 57) eqn:H2; simpl.
  - split; [reflexivity|lia].
  - destruct ((97 <=? n) && (n <=? 122)) eqn:H3.
    + right. eexists. split; [reflexivity|]. lia.
    + destruct ((65 <=? n) && (n <=? 90)) eqn:H4; [|by left].
      right. eexists. split; [reflexivity|]. lia.
  - destruct ((97 <=? n) && (n <=? 122)) eqn:H3.
    + right. eexists. split; [reflexivity|]. lia.
    + destruct ((65 <=? n) && (n <=? 90)) eqn:H4; [|by left].
      right. eexists. split; [reflexivity|]. lia.
  - destruct ((97 <=? n) && (n <=? 122)) eqn:H3.
    + right. eexists. split; [reflexivity|]. lia.
    + destruct ((65 <=? n) && (n <=? 90)) eqn:H4; [|by left].
      right. eexists. split; [reflexivity|]. lia.
Qed.

Lemma decimal_value_ge s : ∀ n, 0 <= n → all_digits s = true → n <= decimal_value n s.
Proof.
  induction s as [|c s IH]; intros n Hn Hall; simpl in *; [lia|].
  apply andb_true_iff in Hall as [Hc Hall].
  pose proof (digit_is_digit c) as Hd. rewrite Hc in Hd. destruct Hd as [_ Hd].
  etrans; [|apply IH]; [lia|lia|done].
Qed.

(** The loop of [ParseUint] returns the number the digits denote when it
    fits a [uint64]; it fails otherwise, with [maxUint64] for a range error. *)
Lemma ParseUint_loop_decimal s : ∀ n, 0 <= n <= strconv.maxUint64 →
  match strconv.ParseUint_loop s n with
  | (u, None) => all_digits s = true ∧ u = decimal_value n s ∧ 0 <= u <= strconv.maxUint64
  | (u, Some e) =>
      ¬ (all_digits s = true ∧ decimal_value n s <= strconv.maxUint64)
      ∧ (e = strconv.ErrRange → u = strconv.maxUint64)
  end.
Proof.
  induction s as [|c s IH]; intros n Hn; simpl; [done|].
  pose proof (digit_is_digit c) as Hd.
  destruct (is_digit c) eqn:Hc; simpl.
  - destruct Hd as [-> Hv].
    set (v := Z.of_N (N_of_ascii c) - 48) in *.
    destruct (10 <=? v) eqn:H10; [lia|].
    unfold strconv.maxUint64 in *.
    change (2 ^ 64) with 18446744073709551616 in *.
    change ((18446744073709551616 - 1) / 10 + 1) with 1844674407370955162.
    destruct (1844674407370955162 <=? n) eqn:Hcut.
    { split; [|done]. intros [Hall Hle].
      pose proof (decimal_value_ge s (n * 10 + v) ltac:(lia) Hall). lia. }
    destruct (Z_lt_dec (n * 10 + v) 18446744073709551616) as [Hfit|Hover].
    + rewrite Z.mod_small by lia.
      replace ((n * 10 + v <? n * 10) || (18446744073709551616 - 1 <? n * 10 + v)) with false
        by (symmetry; apply orb_false_iff; lia).
      specialize (IH (n * 10 + v) ltac:(lia)).
      destruct (strconv.ParseUint_loop s (n * 10 + v)) as [u [e|]]; done.
    + replace ((n * 10 + v) mod 18446744073709551616) with (n * 10 + v - 18446744073709551616)
        by (apply Z.mod_unique with 1; lia).
      replace (_ || _) with true by (symmetry; apply orb_true_iff; lia).
      split; [|done]. intros [Hall Hle].
      pose proof (decimal_value_ge s (n * 10 + v) ltac:(lia) Hall). lia.
  - destruct Hd as [->|(v & -> & Hv)].
    + split; [|done]. by intros [[=] _].
    + replace (10 <=? v) with true by (symmetry; lia).
      split; [|done]. by intros [[=] _].
Qed.

Lemma ParseUint_decimal s :
  match strconv.ParseUint s with
  | (u, None) => decimal s = Some u ∧ 0 <= u <= strconv.maxUint64
  | (u, Some e) =>
      (∀ v, decimal s = Some v → strconv.maxUint64 < v)
      ∧ (e = strconv.ErrRange → u = strconv.maxUint64)
  end.
Proof.
  destruct s as [|c s]; [done|].
  unfold strconv.ParseUint, decimal.
  pose proof (ParseUint_loop_decimal (String c s) 0) as H.
  destruct (strconv.ParseUint_loop (String c s) 0) as [u [e|]].
  - destruct H as [Hno Hrange]; [by vm_compute|]. split; [|done].
    intros v Hv. destruct (all_digits (String c s)); [|done].
    injection Hv as <-. apply Z.nle_gt. intros Hle. by apply Hno.
  - destruct H as (-> & -> & Hu); [by vm_compute|]. done.
Qed.

(** The conversion to [int64] keeps a value that fits. *)
Lemma int64_small u : - 2 ^ 63 <= u < 2 ^ 63 → strconv.int64 u = u.
Proof.
  intros Hu. unfold strconv.int64.
  change (2 ^ 63) with 9223372036854775808 in *.
  change (2 ^ 64) with 18446744073709551616.
  rewrite Z.mod_small by lia. lia.
Qed.

Lemma int64_cutoff : strconv.int64 (2 ^ 63) = - 2 ^ 63.
Proof. reflexivity. Qed.

Local Ltac literals :=
  change (2 ^ 63) with 9223372036854775808 in *;
  change (2 ^ 64) with 18446744073709551616 in *.

Local Ltac compare :=
  literals;
  repeat match goal with
    | |- context [?a <=? ?b] =>
        first [ replace (a <=? b) with true by (symmetry; lia)
              | replace (a <=? b) with false by (symmetry; lia) ]
    | |- context [?a <? ?b] =>
        first [ replace (a <? b) with true by (symmetry; lia)
              | replace (a <? b) with false by (symmetry; lia) ]
    end; simpl.

Local Ltac beyond_uint64 H :=
  match goal with
  | |- context [decimal ?s] =>
      destruct (decimal s) as [v|]; [|done]; simpl;
      specialize (H v eq_refl); unfold strconv.maxUint64 in H; by compare
  end.

(** [strconv.ParseInt] accepts exactly the decimal numerals of a signed 64-bit
    integer, and returns the integer they denote. *)
Theorem ParseInt_decimal s :
  match strconv.ParseInt s with
  | inl v => int64_decimal s = Some v
  | inr _ => int64_decimal s = None
  end.
Proof.
  destruct s as [|c rest]; [done|].
  unfold strconv.ParseInt, int64_decimal, signed_decimal.
  destruct (Ascii.eqb c "+") eqn:Hplus; [|destruct (Ascii.eqb c "-") eqn:Hminus];
    try remember (String c rest) as whole;
    match goal with
    | |- context [strconv.ParseUint ?d] =>
        pose proof (ParseUint_decimal d) as H;
        destruct (strconv.ParseUint d) as [un [[]|]]; simpl
    end.
  all: try (destruct H as [H _]; beyond_uint64 H).
  all: try (destruct H as [H Hmax]; rewrite (Hmax eq_refl);
            try change (2 ^ 63 <=? strconv.maxUint64) with true;
            try change (2 ^ 63 <? strconv.maxUint64) with true; simpl;
            beyond_uint64 H).
  all: destruct H as [-> Hun]; simpl; unfold strconv.maxUint64 in Hun.
  - destruct (2 ^ 63 <=? un) eqn:Hcut; compare; [done|].
    by rewrite int64_small by (literals; lia).
  - destruct (2 ^ 63 <? un) eqn:Hcut; compare; [done|].
    f_equal. destruct (Z.eq_dec un 9223372036854775808) as [->|Hne]; [done|].
    rewrite (int64_small un) by (literals; lia).
    by rewrite int64_small by (literals; lia).
  - destruct (2 ^ 63 <=? un) eqn:Hcut; compare; [done|].
    by rewrite int64_small by (literals; lia).
Qed.



Example ParseInt_samples :
  strconv.ParseInt "120" = inl 120
  ∧ strconv.ParseInt "-5" = inl (-5)
  ∧ strconv.ParseInt "+7" = inl 7
  ∧ strconv.ParseInt "-9223372036854775808" = inl (- 2 ^ 63)
  ∧ strconv.ParseInt "abc"
    = inr {| strconv.Func := "ParseInt"; strconv.Num := "abc";
             strconv.Reason := strconv.ErrSyntax |}
  ∧ strconv.ParseInt "9223372036854775808"
    = inr {| strconv.Func := "ParseInt"; strconv.Num := "9223372036854775808";
             strconv.Reason := strconv.ErrRange |}
  ∧ strconv.ParseInt ""
    = inr {| strconv.Func := "ParseInt"; strconv.Num := "";
             strconv.Reason := strconv.ErrSyntax |}.
Proof. repeat split. Qed.

(** ** Which annotations the plugin accepts *)

Section Numerals.

Variable ActiveDeadlineSecondsOverrideAnnotation : string.
Variable Quote : string → string.

(** The resolver applies the override annotation exactly when it is a decimal
    numeral of a signed 64-bit integer (an optional sign, then digits only),
    and then writes the integer it denotes; any other text, the empty one and
    numerals out of range included, makes it return an error, and the pod is
    not written. *)
Theorem resolver_reads_decimal a name ns raw h :
  lookup_namespace a name = Some (inl ns) →
  annotation ActiveDeadlineSecondsOverrideAnnotation ns = Some raw →
  match int64_decimal raw with
  | Some v =>
      applyProjectAnnotationOverride ActiveDeadlineSecondsOverrideAnnotation
        Quote a name h
      = Some ((true, None),
              {| pod_cell := kapi.with_deadline (pod_cell h) (Some v);
                 events := events h
                             ++ [CalledGetNamespace name; WroteOverride (Some v)] |})
  | None =>
      ∃ message,
        applyProjectAnnotationOverride ActiveDeadlineSecondsOverrideAnnotation
          Quote a name h
        = Some ((false, Some (Errorf message)),
                {| pod_cell := pod_cell h;
                   events := events h ++ [CalledGetNamespace name] |})
  end.
Proof.
  intros Hlook Hann.
  pose proof (ParseInt_decimal raw) as Hdec.
  destruct (strconv.ParseInt raw) as [v|err] eqn:Hparse; rewrite Hdec.
  - by eapply resolver_applies.
  - eexists. by eapply resolver_malformed.
Qed.


(** [Admit] refuses a request in three situations and in no other: the
    request is for [pods] without a subresource under a configured policy,
    and either its object is no pod, or it is a run-once pod and the lookup
    of its namespace fails, or it is a run-once pod and the override
    annotation of its namespace is not a decimal numeral of a signed 64-bit
    integer. *)
Theorem Admit_rejects_iff a attributes :
  (∃ out err,
     Admit ActiveDeadlineSecondsOverrideAnnotation Quote a attributes = Some out
     ∧ returned out = Some err)
  ↔ ∃ cfg,
      config a = Some cfg
      ∧ admission.GetResource attributes = kapi.Resource "pods"
      ∧ admission.GetSubresource attributes = ""
      ∧ ((∃ gosyntax, admission.GetObject attributes = kapi.OtherObject gosyntax)
         ∨ ∃ pod,
             admission.GetObject attributes = kapi.PodObject pod
             ∧ run_once pod
             ∧ ((∃ msg, lookup_namespace a (admission.GetNamespace attributes)
                        = Some (inr msg))
                ∨ ∃ ns raw,
                    lookup_namespace a (admission.GetNamespace attributes)
                    = Some (inl ns)
                    ∧ annotation ActiveDeadlineSecondsOverrideAnnotation ns
                      = Some raw
                    ∧ int64_decimal raw = None)).
Proof.
  split.
  - intros (out & err & Hout & Herr). apply Admit_ends_in in Hout.
    destruct Hout as [|cfg g Hcfg Hres Hsub Hobj
                     |cfg pod msg (Hcfg & Hres & Hsub & Hobj & Hpol) Hlook
                     |cfg pod ns raw e (Hcfg & Hres & Hsub & Hobj & Hpol)
                        Hlook Hann Hparse
                     | | |]; simpl in Herr; try discriminate;
      exists cfg; repeat (split; [done|]).
    + left. eauto.
    + right. exists pod. repeat (split; [done|]). left. eauto.
    + right. exists pod. repeat (split; [done|]). right. exists ns, raw.
      repeat (split; [done|]).
      pose proof (ParseInt_decimal raw) as Hdec. by rewrite Hparse in Hdec.
  - intros (cfg & Hcfg & Hres & Hsub
            & [[g Hobj]|(pod & Hobj & Hpol & Hwhy)]).
    + eexists _, _. split; [by eapply type_mismatch_helper|]. reflexivity.
    + assert (Happ : applicable a cfg attributes pod) by done.
      rewrite (Admit_applicable _ _ _ _ _ _ Happ).
      destruct Hwhy as [[msg Hlook]|(ns & raw & Hlook & Hann & Hdec)].
      * rewrite (resolver_lookup_fails _ _ _ _ _ _ Hlook).
        eexists _, _. split; reflexivity.
      * pose proof (ParseInt_decimal raw) as Hparse.
        destruct (strconv.ParseInt raw) as [v|e] eqn:He; [congruence|].
        rewrite (resolver_malformed _ _ _ _ _ _ _ _ Hlook Hann He).
        eexists _, _. split; reflexivity.
Qed.

End Numerals.

(** ** The configuration that reaches the plugin *)

Section ConfigurationProperties.

Variable ActiveDeadlineSecondsOverrideAnnotation : string.
Variable Quote : string → string.
Variable Reader : Type.
Variable ReadYAML : Reader → option ConfigObject + string.
Variable FieldError : Type.
Variable ValidateRunOnceDurationConfig :
  api.RunOnceDurationConfig → list FieldError.
Variable ToAggregate_Error : list FieldError → string.

Lemma no_errors {A} (errs : list A) :
  (0 <? Z.of_nat (length errs)) = false ↔ errs = [].
Proof. destruct errs; simpl; split; done. Qed.

(** [readConfig] returns without an error in two cases only: there is no
    configuration, and it returns nil; or the configuration is a
    [RunOnceDurationConfig] on which the validation reports no error, and it
    returns that one. *)
Theorem readConfig_ok reader result :
  readConfig Reader ReadYAML FieldError ValidateRunOnceDurationConfig
    ToAggregate_Error reader = inl result
  ↔ (result = None ∧ ReadYAML reader = inl None)
    ∨ (∃ config,
         result = Some config
         ∧ ReadYAML reader = inl (Some (RunOnceDurationConfigObject config))
         ∧ ValidateRunOnceDurationConfig config = []).
Proof.
  unfold readConfig.
  destruct (ReadYAML reader) as [[[config|gosyntax]|]|msg]; simpl.
  - destruct (0 <? _) eqn:Herrs; split.
    + discriminate.
    + intros [[_ [=]]|(config' & _ & [= <-] & Hnone)].
      apply no_errors in Hnone. congruence.
    + intros [= <-]. right. exists config. by apply no_errors in Herrs.
    + intros [[_ [=]]|(config' & -> & [= <-] & _)]. reflexivity.
  - split; [discriminate|]. by intros [[_ [=]]|(config' & _ & [=] & _)].
  - split.
    + intros [= <-]. by left.
    + by intros [[-> _]|(config' & _ & [=] & _)].
  - split; [discriminate|]. by intros [[_ [=]]|(config' & _ & [=] & _)].
Qed.

(** Without a configuration the registered function still makes a plugin,
    and that plugin admits every request as it is, with or without a cache. *)
Theorem no_configuration_admits_everything reader :
  ReadYAML reader = inl None →
  ∃ a, RunOnceDuration_plugin Reader ReadYAML FieldError
         ValidateRunOnceDurationConfig ToAggregate_Error reader = inl a
       ∧ ∀ c attributes,
           Admit ActiveDeadlineSecondsOverrideAnnotation Quote
             (SetProjectCache a c) attributes
           = Some {| object := admission.GetObject attributes; effects := [];
                     returned := None |}.
Proof.
  intros Hread. unfold RunOnceDuration_plugin, readConfig. rewrite Hread.
  eexists. split; [reflexivity|]. reflexivity.
Qed.

(** A default that the registered plugin writes to a pod comes from a
    configuration on which the validation reported no error. *)
Theorem default_written_was_validated reader a c attributes out value :
  RunOnceDuration_plugin Reader ReadYAML FieldError
    ValidateRunOnceDurationConfig ToAggregate_Error reader = inl a →
  Admit ActiveDeadlineSecondsOverrideAnnotation Quote
    (SetProjectCache a c) attributes = Some out →
  In (WroteDefault value) (effects out) →
  ∃ config d,
    ReadYAML reader = inl (Some (RunOnceDurationConfigObject config))
    ∧ ValidateRunOnceDurationConfig config = []
    ∧ api.ActiveDeadlineSecondsOverride config = Some d
    ∧ value = Some d
    ∧ deadline (object out) = Some (Some d).
Proof.
  intros Hplugin Hout Hin. unfold RunOnceDuration_plugin in Hplugin.
  destruct (readConfig _ _ _ _ _ reader) as [result|err] eqn:Hread;
    [|discriminate].
  injection Hplugin as <-.
  apply Admit_ends_in in Hout.
  destruct Hout as [| | | | |cfg pod ns d Happ _ _ Hdefault|]; simpl in Hin;
    try (by intuition discriminate).
  destruct Hin as [[=]|[[= <-]|[]]].
  destruct Happ as (Hcfg & _). simpl in Hcfg. subst result.
  apply readConfig_ok in Hread as [[[=] _]|(config & [= <-] & Hyaml & Hvalid)].
  by exists cfg, d.
Qed.

End ConfigurationProperties.

(** ** The theorems at work on sample requests *)

Section Scenarios.

Import Sample.

(** The namespace [batch-ns] overrides the deadline with 120 seconds, the
    cluster default is 300: a pod that retries on failure gets 120. *)
Lemma override_wins_witness :
  Admit key quote (plugin (Some 300) (Some (cache_of (Some {[ key := "120" ]}))))
        (request (pod kapi.RestartPolicyOnFailure None))
  = Some {| object := kapi.PodObject (pod kapi.RestartPolicyOnFailure (Some 120));
            effects := [CalledGetNamespace "batch-ns"; WroteOverride (Some 120)];
            returned := None |}.
Proof.
  apply (override_wins key quote
           (plugin (Some 300) (Some (cache_of (Some {[ key := "120" ]}))))
           {| api.ActiveDeadlineSecondsOverride := Some 300 |}
           (request (pod kapi.RestartPolicyOnFailure None))
           (pod kapi.RestartPolicyOnFailure None)
           (namespace (Some {[ key := "120" ]})) "120" 120).
  - repeat split. right. reflexivity.
  - reflexivity.
  - reflexivity.
  - reflexivity.
Defined.

(** The annotation of [batch-ns] is ["abc"]: the request is refused. *)
Lemma malformed_override_rejected_witness :
  ∃ message,
    Admit key quote (plugin (Some 300) (Some (cache_of (Some {[ key := "abc" ]}))))
          (request (pod kapi.RestartPolicyNever (Some 600)))
    = Some {| object := kapi.PodObject (pod kapi.RestartPolicyNever (Some 600));
              effects := [CalledGetNamespace "batch-ns"];
              returned :=
                Some (NewForbidden (request (pod kapi.RestartPolicyNever (Some 600)))
                        (Errorf message)) |}
    ∧ occurs_in "abc" message
    ∧ occurs_in "batch-ns" message.
Proof.
  apply (malformed_override_rejected key quote
           (plugin (Some 300) (Some (cache_of (Some {[ key := "abc" ]}))))
           {| api.ActiveDeadlineSecondsOverride := Some 300 |}
           (request (pod kapi.RestartPolicyNever (Some 600)))
           (pod kapi.RestartPolicyNever (Some 600))
           (namespace (Some {[ key := "abc" ]})) "abc"
           {| strconv.Func := "ParseInt"; strconv.Num := "abc";
              strconv.Reason := strconv.ErrSyntax |}).
  - repeat split. left. reflexivity.
  - reflexivity.
  - reflexivity.
  - reflexivity.
Defined.

(** [batch-ns] has no override, the cluster default is 300, the submitter
    asked for 600: the pod gets 300. *)
Lemma default_applied_witness :
  Admit key quote (plugin (Some 300) (Some (cache_of (Some ∅))))
        (request (pod kapi.RestartPolicyNever (Some 600)))
  = Some {| object := kapi.PodObject (pod kapi.RestartPolicyNever (Some 300));
            effects := [CalledGetNamespace "batch-ns"; WroteDefault (Some 300)];
            returned := None |}.
Proof.
  apply (default_applied key quote
           (plugin (Some 300) (Some (cache_of (Some ∅))))
           {| api.ActiveDeadlineSecondsOverride := Some 300 |}
           (request (pod kapi.RestartPolicyNever (Some 600)))
           (pod kapi.RestartPolicyNever (Some 600)) (namespace (Some ∅)) 300).
  - repeat split. left. reflexivity.
  - reflexivity.
  - reflexivity.
  - reflexivity.
Defined.

(** A pod that always restarts keeps its deadline, even when its namespace
    has an override and the cluster a default. *)
Lemma always_untouched_witness :
  Admit key quote (plugin (Some 300) (Some (cache_of (Some {[ key := "120" ]}))))
        (request (pod kapi.RestartPolicyAlways (Some 600)))
  = Some {| object := kapi.PodObject (pod kapi.RestartPolicyAlways (Some 600));
            effects := []; returned := None |}.
Proof.
  apply (always_untouched key quote
           (plugin (Some 300) (Some (cache_of (Some {[ key := "120" ]}))))
           (request (pod kapi.RestartPolicyAlways (Some 600)))
           (pod kapi.RestartPolicyAlways (Some 600))).
  - reflexivity.
  - reflexivity.
Defined.

(** Neither an override nor a default: the pod keeps the 600 seconds it was
    submitted with. *)
Lemma nothing_to_apply_witness :
  Admit key quote (plugin None (Some (cache_of None)))
        (request (pod kapi.RestartPolicyOnFailure (Some 600)))
  = Some {| object := kapi.PodObject (pod kapi.RestartPolicyOnFailure (Some 600));
            effects := [CalledGetNamespace "batch-ns"];
            returned := None |}.
Proof.
  apply (nothing_to_apply key quote
           (plugin None (Some (cache_of None)))
           {| api.ActiveDeadlineSecondsOverride := None |}
           (request (pod kapi.RestartPolicyOnFailure (Some 600)))
           (pod kapi.RestartPolicyOnFailure (Some 600)) (namespace None)).
  - repeat split. right. reflexivity.
  - reflexivity.
  - reflexivity.
  - reflexivity.
Defined.

(** The cache cannot answer: the request is refused. *)
Lemma lookup_failure_rejected_witness :
  (∀ h,
     applyProjectAnnotationOverride key quote
       (plugin (Some 300) (Some broken_cache)) "batch-ns" h
     = Some ((false,
              Some (Errorf "error looking up pod namespace: cache not ready")),
             {| pod_cell := pod_cell h;
                events := events h ++ [CalledGetNamespace "batch-ns"] |}))
  ∧ Admit key quote (plugin (Some 300) (Some broken_cache))
          (request (pod kapi.RestartPolicyNever (Some 600)))
    = Some {| object := kapi.PodObject (pod kapi.RestartPolicyNever (Some 600));
              effects := [CalledGetNamespace "batch-ns"];
              returned :=
                Some (NewForbidden (request (pod kapi.RestartPolicyNever (Some 600)))
                        (Errorf "error looking up pod namespace: cache not ready")) |}.
Proof.
  apply (lookup_failure_rejected key quote
           (plugin (Some 300) (Some broken_cache))
           {| api.ActiveDeadlineSecondsOverride := Some 300 |}
           (request (pod kapi.RestartPolicyNever (Some 600)))
           (pod kapi.RestartPolicyNever (Some 600)) "cache not ready").
  - repeat split. left. reflexivity.
  - reflexivity.
Defined.

(** A request on the subresource [status] of a pod, to a plugin that was
    given no cache: nothing happens. *)
Lemma not_applicable_noop_witness :
  Admit key quote (plugin (Some 300) None)
        {| admission.GetResource := kapi.Resource "pods";
           admission.GetSubresource := "status";
           admission.GetNamespace := "batch-ns";
           admission.GetObject := kapi.OtherObject "&api.Binding{}" |}
  = Some {| object := kapi.OtherObject "&api.Binding{}";
            effects := []; returned := None |}.
Proof.
  apply (not_applicable_noop key quote).
  right. right. simpl. discriminate.
Defined.

(** The annotation ["-5"] is accepted, and the pod gets a deadline of -5. *)
Lemma resolver_accepts_any_integer_witness :
  applyProjectAnnotationOverride key quote
    (plugin None (Some (cache_of (Some {[ key := "-5" ]})))) "batch-ns"
    {| pod_cell := pod kapi.RestartPolicyNever None; events := [] |}
  = Some ((true, None),
          {| pod_cell := pod kapi.RestartPolicyNever (Some (-5));
             events := [CalledGetNamespace "batch-ns"; WroteOverride (Some (-5))] |}).
Proof.
  apply (resolver_accepts_any_integer key quote
           (plugin None (Some (cache_of (Some {[ key := "-5" ]})))) "batch-ns"
           (namespace (Some {[ key := "-5" ]})) "-5" (-5)
           {| pod_cell := pod kapi.RestartPolicyNever None; events := [] |}).
  - reflexivity.
  - reflexivity.
  - reflexivity.
Defined.

(** The request with the override of 120 seconds makes one decision. *)
Lemma exactly_one_decision_witness :
  ∃ out,
    Admit key quote (plugin (Some 300) (Some (cache_of (Some {[ key := "120" ]}))))
          (request (pod kapi.RestartPolicyOnFailure None)) = Some out
    ∧ exists! d,
        decided key (plugin (Some 300) (Some (cache_of (Some {[ key := "120" ]}))))
                (request (pod kapi.RestartPolicyOnFailure None)) out d.
Proof.
  apply (exactly_one_decision key quote). reflexivity.
Defined.

(** Admitting the pod that got the default of 300 seconds once more changes
    nothing. *)
Lemma Admit_idempotent_witness :
  ∃ out,
    Admit key quote (plugin (Some 300) (Some (cache_of (Some ∅))))
          (request (pod kapi.RestartPolicyNever (Some 600))) = Some out
    ∧ Admit key quote (plugin (Some 300) (Some (cache_of (Some ∅))))
            (resubmit (request (pod kapi.RestartPolicyNever (Some 600))) out)
      = Some out.
Proof.
  apply (Admit_idempotent key quote). reflexivity.
Defined.

(** With no policy configured the pod is left alone, whatever its restart
    policy and the annotations of its namespace. *)
Example no_policy_configured policy seconds annotations :
  Admit key quote (SetProjectCache (NewRunOnceDuration None) (Some (cache_of annotations)))
        (request (pod policy seconds))
  = Some {| object := kapi.PodObject (pod policy seconds);
            effects := []; returned := None |}.
Proof. reflexivity. Qed.

(** The override that is applied above is the one of the second call too. *)
Example override_twice :
  Admit key quote (plugin (Some 300) (Some (cache_of (Some {[ key := "120" ]}))))
        (request (pod kapi.RestartPolicyOnFailure (Some 120)))
  = Some {| object := kapi.PodObject (pod kapi.RestartPolicyOnFailure (Some 120));
            effects := [CalledGetNamespace "batch-ns"; WroteOverride (Some 120)];
            returned := None |}.
Proof. reflexivity. Qed.

End Scenarios.


(** ** The further properties on sample requests *)

Section FurtherScenarios.

Import Sample.

(** A binding sent as if it were a pod is refused. *)
Lemma type_mismatch_rejected_witness :
  Admit key quote (plugin (Some 300) None)
    {| admission.GetResource := kapi.Resource "pods";
       admission.GetSubresource := "";
       admission.GetNamespace := "batch-ns";
       admission.GetObject := kapi.OtherObject "&api.Binding{}" |}
  = Some {| object := kapi.OtherObject "&api.Binding{}"; effects := [];
            returned :=
              Some (NewForbidden
                      {| admission.GetResource := kapi.Resource "pods";
                         admission.GetSubresource := "";
                         admission.GetNamespace := "batch-ns";
                         admission.GetObject := kapi.OtherObject "&api.Binding{}" |}
                      (Errorf "unexpected object: &api.Binding{}")) |}.
Proof.
  apply (type_mismatch_rejected key quote (plugin (Some 300) None)
           {| api.ActiveDeadlineSecondsOverride := Some 300 |}
           {| admission.GetResource := kapi.Resource "pods";
              admission.GetSubresource := "";
              admission.GetNamespace := "batch-ns";
              admission.GetObject := kapi.OtherObject "&api.Binding{}" |}
           "&api.Binding{}").
  - reflexivity.
  - reflexivity.
  - reflexivity.
  - reflexivity.
Defined.

(** A pod without a restart policy is left alone. *)
Lemma other_policies_untouched_witness :
  Admit key quote
    (plugin (Some 300) (Some (cache_of (Some {[ key := "120" ]}))))
    (request (pod "" (Some 600)))
  = Some {| object := kapi.PodObject (pod "" (Some 600)); effects := [];
            returned := None |}.
Proof.
  apply (other_policies_untouched key quote
           (plugin (Some 300) (Some (cache_of (Some {[ key := "120" ]}))))
           (request (pod "" (Some 600))) (pod "" (Some 600))).
  - reflexivity.
  - intros [H|H]; discriminate H.
Defined.

(** The request refused for the annotation ["abc"] keeps its pod. *)
Lemma rejected_not_mutated_witness :
  kapi.PodObject (pod kapi.RestartPolicyNever (Some 600))
  = admission.GetObject (request (pod kapi.RestartPolicyNever (Some 600)))
  ∧ writes [CalledGetNamespace "batch-ns"] = []
  ∧ ∃ message,
      NewForbidden (request (pod kapi.RestartPolicyNever (Some 600)))
        (Errorf ("cannot parse the ActiveDeadlineSeconds override (abc)"
                   +:+ " for project batch-ns: strconv.ParseInt: parsing "
                   +:+ quote "abc" +:+ ": invalid syntax"))
      = NewForbidden (request (pod kapi.RestartPolicyNever (Some 600)))
          (Errorf message).
Proof.
  apply (rejected_not_mutated key quote
           (plugin (Some 300) (Some (cache_of (Some {[ key := "abc" ]}))))
           (request (pod kapi.RestartPolicyNever (Some 600)))
           {| object := kapi.PodObject (pod kapi.RestartPolicyNever (Some 600));
              effects := [CalledGetNamespace "batch-ns"];
              returned :=
                Some (NewForbidden (request (pod kapi.RestartPolicyNever (Some 600)))
                        (Errorf ("cannot parse the ActiveDeadlineSeconds override (abc)"
                                   +:+ " for project batch-ns: strconv.ParseInt: parsing "
                                   +:+ quote "abc" +:+ ": invalid syntax"))) |}).
  - reflexivity.
  - reflexivity.
Defined.

(** The 600 seconds of the submitter are replaced, not removed. *)
Lemma deadline_never_cleared_witness :
  ∃ seconds',
    deadline (kapi.PodObject (pod kapi.RestartPolicyNever (Some 300)))
    = Some (Some seconds').
Proof.
  apply (deadline_never_cleared key quote
           (plugin (Some 300) (Some (cache_of (Some ∅))))
           (request (pod kapi.RestartPolicyNever (Some 600)))
           (pod kapi.RestartPolicyNever (Some 600))
           {| object := kapi.PodObject (pod kapi.RestartPolicyNever (Some 300));
              effects := [CalledGetNamespace "batch-ns"; WroteDefault (Some 300)];
              returned := None |}
           600).
  - reflexivity.
  - reflexivity.
  - reflexivity.
Defined.

(** One lookup, then the write of the override. *)
Lemma lookup_once_before_write_witness :
  [CalledGetNamespace "batch-ns"; WroteOverride (Some 120)] = []
  ∨ ∃ ws,
      [CalledGetNamespace "batch-ns"; WroteOverride (Some 120)]
      = CalledGetNamespace "batch-ns" :: ws
      ∧ writes ws = ws
      ∧ (length ws ≤ 1)%nat.
Proof.
  apply (lookup_once_before_write key quote
           (plugin (Some 300) (Some (cache_of (Some {[ key := "120" ]}))))
           (request (pod kapi.RestartPolicyOnFailure None))
           {| object := kapi.PodObject (pod kapi.RestartPolicyOnFailure (Some 120));
              effects := [CalledGetNamespace "batch-ns"; WroteOverride (Some 120)];
              returned := None |}).
  reflexivity.
Defined.

(** Another annotation on the namespace changes nothing. *)
Lemma only_override_annotation_matters_witness :
  Admit key quote
    (plugin (Some 300) (Some (cache_of (Some {[ key := "120" ]}))))
    (request (pod kapi.RestartPolicyOnFailure None))
  = Admit key quote
      (plugin (Some 300)
         (Some (cache_of (Some (<[ "openshift.io/description" := "batch jobs" ]>
                                  {[ key := "120" ]})))))
      (request (pod kapi.RestartPolicyOnFailure None)).
Proof.
  apply (only_override_annotation_matters key quote
           (plugin (Some 300) (Some (cache_of (Some {[ key := "120" ]}))))
           (plugin (Some 300)
              (Some (cache_of (Some (<[ "openshift.io/description" := "batch jobs" ]>
                                       {[ key := "120" ]})))))
           (request (pod kapi.RestartPolicyOnFailure None))
           (namespace (Some {[ key := "120" ]}))
           (namespace (Some (<[ "openshift.io/description" := "batch jobs" ]>
                               {[ key := "120" ]})))).
  - reflexivity.
  - reflexivity.
  - reflexivity.
  - reflexivity.
  - reflexivity.
Defined.

(** The annotation ["+007"] is a numeral, and gives 7 seconds. *)
Lemma resolver_reads_decimal_witness :
  applyProjectAnnotationOverride key quote
    (plugin None (Some (cache_of (Some {[ key := "+007" ]})))) "batch-ns"
    {| pod_cell := pod kapi.RestartPolicyNever None; events := [] |}
  = Some ((true, None),
          {| pod_cell := pod kapi.RestartPolicyNever (Some 7);
             events := [CalledGetNamespace "batch-ns"; WroteOverride (Some 7)] |}).
Proof.
  apply (resolver_reads_decimal key quote
           (plugin None (Some (cache_of (Some {[ key := "+007" ]})))) "batch-ns"
           (namespace (Some {[ key := "+007" ]})) "+007"
           {| pod_cell := pod kapi.RestartPolicyNever None; events := [] |}).
  - reflexivity.
  - reflexivity.
Defined.


(** An empty configuration text gives a plugin that admits everything. *)
Lemma no_configuration_admits_everything_witness :
  ∃ a, RunOnceDuration_plugin string SampleConfig.ReadYAML string
         SampleConfig.Validate SampleConfig.Aggregate "" = inl a
       ∧ ∀ c attributes,
           Admit key quote (SetProjectCache a c) attributes
           = Some {| object := admission.GetObject attributes; effects := [];
                     returned := None |}.
Proof.
  apply (no_configuration_admits_everything key quote string
           SampleConfig.ReadYAML string SampleConfig.Validate
           SampleConfig.Aggregate "").
  reflexivity.
Defined.

(** The default of 300 seconds that is written passed the validation. *)
Lemma default_written_was_validated_witness :
  ∃ config d,
    SampleConfig.ReadYAML "activeDeadlineSecondsOverride: 300"
    = inl (Some (RunOnceDurationConfigObject config))
    ∧ SampleConfig.Validate config = []
    ∧ api.ActiveDeadlineSecondsOverride config = Some d
    ∧ Some 300 = Some d
    ∧ deadline (kapi.PodObject (pod kapi.RestartPolicyNever (Some 300)))
      = Some (Some d).
Proof.
  apply (default_written_was_validated key quote string
           SampleConfig.ReadYAML string SampleConfig.Validate
           SampleConfig.Aggregate "activeDeadlineSecondsOverride: 300"
           (NewRunOnceDuration (Some {| api.ActiveDeadlineSecondsOverride := Some 300 |}))
           (Some (cache_of (Some ∅)))
           (request (pod kapi.RestartPolicyNever (Some 600)))
           {| object := kapi.PodObject (pod kapi.RestartPolicyNever (Some 300));
              effects := [CalledGetNamespace "batch-ns"; WroteDefault (Some 300)];
              returned := None |}
           (Some 300)).
  - reflexivity.
  - reflexivity.
  - simpl. right. left. reflexivity.
Defined.

(** A configuration with a default below zero makes no plugin. *)
Example negative_default_refused :
  RunOnceDuration_plugin string SampleConfig.ReadYAML string
    SampleConfig.Validate SampleConfig.Aggregate
    "activeDeadlineSecondsOverride: -1"
  = inr (Errorf "activeDeadlineSecondsOverride: Invalid value").
Proof. reflexivity. Qed.

End FurtherScenarios.
